(** * google_nest_sdm.event: events from the pubsub subscriber

    A shallow embedding of [google_nest_sdm/event.py] and the properties of
    its value objects, of the dispatch function [BuildEvents] and of the
    accessors of [EventMessage].

    Python dictionaries keyed by strings are stdpp [gmap string _]; a raised
    exception is the [Raise] branch of [result]; a property of an object is
    a state-passing [method] over the fields of [self]. *)

From Stdlib Require Import ZArith Ascii String.
From stdpp Require Import base option list gmap strings fin_maps.

Local Open Scope string_scope.

(** ** JSON payloads and Python exceptions *)

(** What the subscriber hands over: an already parsed JSON document. The
    module never computes with numbers; a float is kept as a decimal
    mantissa and exponent. *)
#[warnings="-register-all"] Inductive value : Type :=
  | VNone
  | VBool (b : bool)
  | VInt (n : Z)
  | VFloat (mantissa exponent : Z)
  | VStr (s : string)
  | VList (l : list value)
  | VDict (d : gmap string value).

(** The exceptions the code of this module can raise. *)
Inductive exn : Type :=
  | KeyError (key : string)
  | TypeError
  | AttributeError (attr : string)
  | ValueError.

Inductive result (A : Type) : Type :=
  | Ok (a : A)
  | Raise (e : exn).
Arguments Ok {A} a.
Arguments Raise {A} e.

Definition result_bind {A B} (r : result A) (k : A -> result B) : result B :=
  match r with
  | Ok a => k a
  | Raise e => Raise e
  end.

Definition result_map {A B} (f : A -> B) (r : result A) : result B :=
  result_bind r (fun a => Ok (f a)).

(** ** Builtin operations used by the module *)

(** [d[key]] on a dict. *)
Definition dict_getitem (d : gmap string value) (key : string) : result value :=
  match d !! key with
  | Some v => Ok v
  | None => Raise (KeyError key)
  end.

(** [v[key]] with a string key: only a dict can be subscripted by a string. *)
Definition getitem (v : value) (key : string) : result value :=
  match v with
  | VDict d => dict_getitem d key
  | _ => Raise TypeError
  end.

(** [key in d]. *)
Definition contains (key : string) (d : gmap string value) : bool :=
  bool_decide (is_Some (d !! key)).

(** [v.get(key, default)]: only dicts have [get]. *)
Definition dict_get (v : value) (key : string) (default : value) : result value :=
  match v with
  | VDict d => Ok (match d !! key with Some x => x | None => default end)
  | _ => Raise (AttributeError "get")
  end.

(** [v.items()]: only dicts have [items]. *)
Definition dict_items (v : value) : result (list (string * value)) :=
  match v with
  | VDict d => Ok (map_to_list d)
  | _ => Raise (AttributeError "items")
  end.

(** [str.replace(old, new)] for a non-empty [old]: occurrences are found
    from left to right and do not overlap; [skip] counts the characters of
    a replaced occurrence that are still to be dropped. *)
Fixpoint replace_go (old new : string) (skip : nat) (s : string) : string :=
  match s with
  | EmptyString => EmptyString
  | String c s' =>
      match skip with
      | S n => replace_go old new n s'
      | O =>
          if String.prefix old s
          then new +:+ replace_go old new (String.length old - 1) s'
          else String c (replace_go old new 0 s')
      end
  end.

(** [str.replace(old, new)] for an empty [old]: [new] goes before every
    character and at the end. *)
Fixpoint replace_empty (new : string) (s : string) : string :=
  match s with
  | EmptyString => new
  | String c s' => new +:+ String c (replace_empty new s')
  end.

Definition str_replace (s old new : string) : string :=
  match old with
  | EmptyString => replace_empty new s
  | _ => replace_go old new 0 s
  end.

(** [v.replace(old, new)]: only strings have [replace]. *)
Definition replace (v : value) (old new : string) : result string :=
  match v with
  | VStr s => Ok (str_replace s old new)
  | _ => Raise (AttributeError "replace")
  end.

(** ** Methods: state passing over the fields of [self] *)

(** A method runs on the object it is called on and hands the object back
    together with its outcome; an exception keeps whatever the method did to
    the object before raising. *)
Definition method (Self A : Type) : Type := Self -> result A * Self.

Definition call {Self A} (m : method Self A) (self : Self) : result A := fst (m self).
Definition after {Self A} (m : method Self A) (self : Self) : Self := snd (m self).

#[global] Instance method_ret {Self} : MRet (method Self) :=
  fun A a self => (Ok a, self).

#[global] Instance method_bind {Self} : MBind (method Self) :=
  fun A B k m self =>
    match m self with
    | (Ok a, self') => k a self'
    | (Raise e, self') => (Raise e, self')
    end.

(** An operation that does not touch [self]. *)
Definition lift {Self A} (r : result A) : method Self A := fun self => (r, self).

(** [self.field]. *)
Definition getattr {Self A} (field : Self -> A) : method Self A :=
  fun self => (Ok (field self), self).

(** ** Module constants *)

Definition EVENT_ID := "eventId".
Definition EVENT_SESSION_ID := "eventSessionId".
Definition TIMESTAMP := "timestamp".
Definition RESOURCE_UPDATE := "resourceUpdate".
Definition NAME := "name".
Definition TRAITS := "traits".
Definition EVENTS := "events".
Definition RELATION_UPDATE := "relationUpdate".
Definition TYPE := "type".
Definition SUBJECT := "subject".
Definition OBJECT := "object".

(** ** Event value objects *)

(** The four subclasses of [EventBase]; they add a [NAME] and nothing else. *)
Inductive EventClass : Type :=
  | CameraMotionEvent
  | CameraPersonEvent
  | CameraSoundEvent
  | DoorbellChimeEvent.

Definition class_NAME (cls : EventClass) : string :=
  match cls with
  | CameraMotionEvent => "sdm.devices.events.CameraMotion.Motion"
  | CameraPersonEvent => "sdm.devices.events.CameraPerson.Person"
  | CameraSoundEvent => "sdm.devices.events.CameraSound.Sound"
  | DoorbellChimeEvent => "sdm.devices.events.DoorbellChime.Chime"
  end.

Module EventBase.

Record t : Type := { cls : EventClass; _data : value }.

(** [cls(data)]: [__init__] stores its argument and looks at nothing. *)
Definition new (c : EventClass) (data : value) : t :=
  {| cls := c; _data := data |}.

Definition event_id : method t value :=
  data ← getattr _data;
  lift (getitem data EVENT_ID).

Definition event_session_id : method t value :=
  data ← getattr _data;
  lift (getitem data EVENT_SESSION_ID).

End EventBase.

(** ** Relation updates *)

Module RelationUpdate.

Record t : Type := { _raw_data : value }.

Definition new (raw_data : value) : t := {| _raw_data := raw_data |}.

Definition type : method t value :=
  raw ← getattr _raw_data;
  lift (getitem raw TYPE).

Definition subject : method t value :=
  raw ← getattr _raw_data;
  lift (getitem raw SUBJECT).

Definition object : method t value :=
  raw ← getattr _raw_data;
  lift (getitem raw OBJECT).

End RelationUpdate.

(** ** The registry and the dispatch function *)

(** Modelled from the spec: [Registry.register] of [registry.py], which is
    not part of this module. Registering inserts the mapping for [name] or
    overwrites it; the decorator form registers a class under its [NAME]. *)
Definition register {C} (name : string) (constructor : C)
    (registry : gmap string C) : gmap string C :=
  <[name := constructor]> registry.

Definition register_class (c : EventClass)
    (registry : gmap string (value -> EventBase.t)) :
    gmap string (value -> EventBase.t) :=
  register (class_NAME c) (EventBase.new c) registry.

(** The state of [EVENT_MAP] once the module is loaded: the four decorated
    classes, registered from top to bottom. *)
Definition EVENT_MAP : gmap string (value -> EventBase.t) :=
  register_class DoorbellChimeEvent
    (register_class CameraSoundEvent
      (register_class CameraPersonEvent
        (register_class CameraMotionEvent ∅))).

(** The body of the [for] loop of [BuildEvents], run over the items that are
    left; [result] is the dict built so far. A registry holds constructors
    that, like the classes of this module, only wrap their argument. *)
Fixpoint BuildEvents_loop {E} (items : list (string * value))
    (event_map : gmap string (value -> E)) (result : gmap string E) :
    gmap string E :=
  match items with
  | [] => result
  | (event, event_data) :: rest =>
      match event_map !! event with
      | None => BuildEvents_loop rest event_map result
      | Some cls => BuildEvents_loop rest event_map (<[event := cls event_data]> result)
      end
  end.

(** [events.items()] is taken in the order of the map; the keys of a dict
    are distinct, so the order of the items does not show in the result. *)
Definition BuildEvents {E} (events : value)
    (event_map : gmap string (value -> E)) : result (gmap string E) :=
  result_bind (dict_items events) (fun items =>
    Ok (BuildEvents_loop items event_map ∅)).

(** ** Commands *)

(** Modelled from the spec: the [Command] class of [traits.py], which is not
    part of this module: a command object bound to a device name and to the
    authenticated-command capability. *)
Record Command (Auth : Type) : Type :=
  { _device_id : value; _cmd_auth : Auth }.
Arguments Build_Command {Auth} _ _.
Arguments _device_id {Auth} _.
Arguments _cmd_auth {Auth} _.

(** ** Event messages *)

Module EventMessage.

Record t (Auth : Type) : Type :=
  { _raw_data : gmap string value; _auth : Auth }.
Arguments Build_t {Auth} _ _.
Arguments _raw_data {Auth} _.
Arguments _auth {Auth} _.

Section Accessors.

(** The collaborators this module imports: the capability handed to the
    message, [datetime.datetime.fromisoformat] of the Python library
    ([None] stands for its [ValueError]) and [BuildTraits] of
    [traits.py]. *)
Variable Auth : Type.
Variable datetime : Type.
Variable fromisoformat : string -> option datetime.
Variable Traits : Type.
Variable BuildTraits : value -> Command Auth -> result Traits.

Definition new (raw_data : gmap string value) (auth : Auth) : t Auth :=
  {| _raw_data := raw_data; _auth := auth |}.

Definition datetime_fromisoformat (date_string : string) : result datetime :=
  match fromisoformat date_string with
  | Some d => Ok d
  | None => Raise ValueError
  end.

Definition event_id : method (t Auth) value :=
  raw ← getattr _raw_data;
  lift (dict_getitem raw EVENT_ID).

Definition timestamp : method (t Auth) datetime :=
  raw ← getattr _raw_data;
  event_timestamp ← lift (dict_getitem raw TIMESTAMP);
  normalized ← lift (replace event_timestamp "Z" "+00:00");
  lift (datetime_fromisoformat normalized).

(** Python's [None] is the value [VNone]. *)
Definition resource_update_name : method (t Auth) value :=
  raw ← getattr _raw_data;
  if negb (contains RESOURCE_UPDATE raw) then mret VNone
  else
    raw ← getattr _raw_data;
    resource_update ← lift (dict_getitem raw RESOURCE_UPDATE);
    lift (getitem resource_update NAME).

Definition resource_update_events :
    method (t Auth) (option (gmap string EventBase.t)) :=
  raw ← getattr _raw_data;
  if negb (contains RESOURCE_UPDATE raw) then mret None
  else
    raw ← getattr _raw_data;
    resource_update ← lift (dict_getitem raw RESOURCE_UPDATE);
    events ← lift (dict_get resource_update EVENTS (VDict ∅));
    built ← lift (BuildEvents events EVENT_MAP);
    mret (Some built).

Definition resource_update_traits : method (t Auth) (option Traits) :=
  raw ← getattr _raw_data;
  if negb (contains RESOURCE_UPDATE raw) then mret None
  else
    name ← resource_update_name;
    auth ← getattr _auth;
    let cmd := Build_Command name auth in
    raw ← getattr _raw_data;
    resource_update ← lift (dict_getitem raw RESOURCE_UPDATE);
    events ← lift (dict_get resource_update TRAITS (VDict ∅));
    built ← lift (BuildTraits events cmd);
    mret (Some built).

Definition relation_update : method (t Auth) (option RelationUpdate.t) :=
  raw ← getattr _raw_data;
  if negb (contains RELATION_UPDATE raw) then mret None
  else
    raw ← getattr _raw_data;
    relation ← lift (dict_getitem raw RELATION_UPDATE);
    mret (Some (RelationUpdate.new relation)).

End Accessors.

Arguments new {Auth} _ _.
Arguments event_id {Auth}.
Arguments timestamp {Auth datetime} _.
Arguments resource_update_name {Auth}.
Arguments resource_update_events {Auth}.
Arguments resource_update_traits {Auth Traits} _.
Arguments relation_update {Auth}.

End EventMessage.

(** ** Reference definitions for the statements *)

(** [s] with every occurrence of the character [c] replaced by [new], read
    off character by character. *)
Fixpoint replace_every_char (c : ascii) (new : string) (s : string) : string :=
  match s with
  | EmptyString => EmptyString
  | String a s' =>
      (if Ascii.eqb a c then new else String a EmptyString)
        +:+ replace_every_char c new s'
  end.

(** Whether the character [c] occurs in [s]. *)
Fixpoint has_char (c : ascii) (s : string) : bool :=
  match s with
  | EmptyString => false
  | String a s' => Ascii.eqb a c || has_char c s'
  end.

(** Whether an outcome is a missing-field error. *)
Definition raises_KeyError {A} (r : result A) : bool :=
  match r with
  | Raise (KeyError _) => true
  | _ => false
  end.

(** The six accessors of an event message under one roof, to speak of
    "an accessor" and "every other accessor". *)
Inductive accessor : Type :=
  | A_event_id
  | A_timestamp
  | A_resource_update_name
  | A_resource_update_events
  | A_resource_update_traits
  | A_relation_update.

Inductive outcome (datetime Traits : Type) : Type :=
  | O_value (v : value)
  | O_datetime (d : datetime)
  | O_events (o : option (gmap string EventBase.t))
  | O_traits (o : option Traits)
  | O_relation (o : option RelationUpdate.t).
Arguments O_value {datetime Traits} v.
Arguments O_datetime {datetime Traits} d.
Arguments O_events {datetime Traits} o.
Arguments O_traits {datetime Traits} o.
Arguments O_relation {datetime Traits} o.

Definition tagged {Self A B} (tag : A -> B) (m : method Self A) : method Self B :=
  a ← m; mret (tag a).

Definition access {Auth datetime Traits}
    (fromisoformat : string -> option datetime)
    (BuildTraits : value -> Command Auth -> result Traits)
    (a : accessor) : method (EventMessage.t Auth) (outcome datetime Traits) :=
  match a with
  | A_event_id => tagged O_value EventMessage.event_id
  | A_timestamp => tagged O_datetime (EventMessage.timestamp fromisoformat)
  | A_resource_update_name => tagged O_value EventMessage.resource_update_name
  | A_resource_update_events => tagged O_events EventMessage.resource_update_events
  | A_resource_update_traits =>
      tagged O_traits (EventMessage.resource_update_traits BuildTraits)
  | A_relation_update => tagged O_relation EventMessage.relation_update
  end.

(** A method that hands [self] back as it received it, whatever its
    outcome. *)
Definition leaves_self {Self A} (m : method Self A) : Prop :=
  forall self, after m self = self.

(** ** A parser to instantiate [fromisoformat] at concrete inputs

    A stand-in for the library function on the fixed-width form
    [YYYY-MM-DD], optionally followed by a separator, [HH:MM:SS] and an
    offset [+HH:MM] or [-HH:MM]. The theorems below hold for every parser;
    this one only serves to run them. *)

Record fixed_datetime : Type :=
  { year : nat; month : nat; day : nat;
    hour : nat; minute : nat; second : nat;
    utcoffset : option Z }.

Definition digit (c : ascii) : option nat :=
  let n := nat_of_ascii c in
  if Nat.leb 48 n && Nat.leb n 57 then Some (n - 48) else None.

Fixpoint digits (k acc : nat) (s : string) : option (nat * string) :=
  match k with
  | O => Some (acc, s)
  | S k' =>
      match s with
      | EmptyString => None
      | String c s' => d ← digit c; digits k' (10 * acc + d) s'
      end
  end.

Definition expect (c : ascii) (s : string) : option string :=
  match s with
  | EmptyString => None
  | String a s' => if Ascii.eqb a c then Some s' else None
  end.

Definition fixed_offset (s : string) : option (option Z) :=
  match s with
  | EmptyString => Some None
  | String sign s =>
      sgn ← (if Ascii.eqb sign "+" then Some 1%Z
             else if Ascii.eqb sign "-" then Some (-1)%Z else None);
      '(hh, s) ← digits 2 0 s;
      s ← expect ":" s;
      '(mm, s) ← digits 2 0 s;
      match s with
      | EmptyString => Some (Some (sgn * Z.of_nat (60 * hh + mm))%Z)
      | _ => None
      end
  end.

Definition fixed_fromisoformat (s : string) : option fixed_datetime :=
  '(y, s) ← digits 4 0 s;
  s ← expect "-" s;
  '(mo, s) ← digits 2 0 s;
  s ← expect "-" s;
  '(d, s) ← digits 2 0 s;
  match s with
  | EmptyString => Some (Build_fixed_datetime y mo d 0 0 0 None)
  | String _ s =>
      '(h, s) ← digits 2 0 s;
      s ← expect ":" s;
      '(mi, s) ← digits 2 0 s;
      s ← expect ":" s;
      '(sec, s) ← digits 2 0 s;
      off ← fixed_offset s;
      Some (Build_fixed_datetime y mo d h mi sec off)
  end.

(** ** Payloads to run the accessors on *)

Definition event_payload : gmap string value :=
  {[ "eventId" := VStr "E1"; "eventSessionId" := VStr "S1" ]}.

Definition relation_payload : gmap string value :=
  {[ "type" := VStr "CREATED"; "subject" := VStr "A"; "object" := VStr "B" ]}.

Definition relation_message : gmap string value :=
  {[ "eventId" := VStr "M1";
     "timestamp" := VStr "2021-07-01T12:00:00Z";
     "relationUpdate" := VDict relation_payload ]}.

Definition events_payload : gmap string value :=
  {[ "sdm.devices.events.CameraMotion.Motion" := VDict event_payload;
     "unknown.type.Foo" := VDict event_payload ]}.

(** A resource update with a name and no "events" key. *)
Definition resource_message : gmap string value :=
  {[ "eventId" := VStr "M2";
     "timestamp" := VStr "2021-07-01T12:00:00Z";
     "resourceUpdate" := VDict {[ "name" := VStr "enterprises/p/devices/d" ]} ]}.

(** A resource update with traits and no "name" key. *)
Definition nameless_message : gmap string value :=
  {[ "eventId" := VStr "M3";
     "timestamp" := VStr "2021-07-01T12:00:00Z";
     "resourceUpdate" :=
       VDict {[ "traits" :=
                  VDict {[ "sdm.devices.traits.Info" :=
                             VDict {[ "customName" := VStr "Door" ]} ]} ]} ]}.

(** A message without "eventId". *)
Definition anonymous_message : gmap string value :=
  {[ "timestamp" := VStr "2021-07-01T12:00:00Z" ]}.

(** A timestamp with a Z in the middle as well. *)
Definition double_Z_message : gmap string value :=
  {[ "timestamp" := VStr "2021-07-01Z12:00:00Z" ]}.

(** A trait builder that accepts whatever it is given. *)
Definition keep_traits (traits : value) (cmd : Command unit) : result value :=
  Ok traits.

(** ** Further definitions for the statements *)

Definition is_dict (v : value) : bool :=
  match v with
  | VDict _ => true
  | _ => false
  end.

(** The top-level key of the raw dictionary an accessor reads. *)
Definition key_of (a : accessor) : string :=
  match a with
  | A_event_id => EVENT_ID
  | A_timestamp => TIMESTAMP
  | A_resource_update_name => RESOURCE_UPDATE
  | A_resource_update_events => RESOURCE_UPDATE
  | A_resource_update_traits => RESOURCE_UPDATE
  | A_relation_update => RELATION_UPDATE
  end.

(** A resource update that reports a motion event and an unknown one. *)
Definition events_section : gmap string value :=
  {[ "name" := VStr "enterprises/p/devices/d";
     "events" := VDict events_payload ]}.

Definition events_message : gmap string value :=
  {[ "eventId" := VStr "M4";
     "timestamp" := VStr "2021-07-01T12:00:00Z";
     "resourceUpdate" := VDict events_section ]}.

(** A motion event whose data is a string, not a dict. *)
Definition garbled_events : gmap string value :=
  {[ "sdm.devices.events.CameraMotion.Motion" := VStr "garbled" ]}.

Definition garbled_section : gmap string value :=
  {[ "name" := VStr "enterprises/p/devices/d";
     "events" := VDict garbled_events ]}.

Definition garbled_message : gmap string value :=
  {[ "resourceUpdate" := VDict garbled_section ]}.

(** An "events" entry that is a list. *)
Definition listed_section : gmap string value :=
  {[ "name" := VStr "enterprises/p/devices/d"; "events" := VList [] ]}.

Definition listed_message : gmap string value :=
  {[ "resourceUpdate" := VDict listed_section ]}.

(** Both optional keys present and mapped to JSON null. *)
Definition null_message : gmap string value :=
  {[ "resourceUpdate" := VNone; "relationUpdate" := VNone ]}.

(** A timestamp given as seconds since the epoch. *)
Definition epoch_message : gmap string value :=
  {[ "timestamp" := VInt 1625140800 ]}.

(** The timestamp of [relation_message], already normalized. *)
Definition normalized_message : gmap string value :=
  {[ "timestamp" := VStr "2021-07-01T12:00:00+00:00" ]}.

(** * Properties *)

(** ** The builtins at concrete inputs *)

Example str_replace_abc : str_replace "abcabc" "bc" "X" = "aXaX".
Proof. reflexivity. Qed.

Example str_replace_overlap : str_replace "aaa" "aa" "b" = "ba".
Proof. reflexivity. Qed.

Example str_replace_empty_old : str_replace "abc" EmptyString "-" = "-a-b-c-".
Proof. reflexivity. Qed.

Example fixed_fromisoformat_utc :
  fixed_fromisoformat "2021-07-01T12:00:00+00:00"
  = Some (Build_fixed_datetime 2021 7 1 12 0 0 (Some 0%Z)).
Proof. reflexivity. Qed.

Example fixed_fromisoformat_bare_Z :
  fixed_fromisoformat "2021-07-01T12:00:00Z" = None.
Proof. reflexivity. Qed.

(** ** The dispatch loop *)

Lemma BuildEvents_loop_lookup {E} (items : list (string * value))
    (event_map : gmap string (value -> E)) (result : gmap string E)
    (event : string) :
  NoDup items.*1 ->
  BuildEvents_loop items event_map result !! event =
    match (list_to_map items : gmap string value) !! event, event_map !! event with
    | Some event_data, Some cls => Some (cls event_data)
    | _, _ => result !! event
    end.
Proof.
  revert result.
  induction items as [|[k d] rest IH]; intros result Hnd; simpl.
  - by rewrite lookup_empty.
  - apply NoDup_cons in Hnd as [Hk Hnd].
    assert (Hrest : (list_to_map rest : gmap string value) !! k = None)
      by by apply not_elem_of_list_to_map_1.
    destruct (event_map !! k) as [cls|] eqn:Hcls; rewrite (IH _ Hnd).
    + destruct (decide (k = event)) as [->|Hne].
      * by rewrite Hrest, !lookup_insert_eq, Hcls.
      * by rewrite !lookup_insert_ne.
    + destruct (decide (k = event)) as [->|Hne].
      * by rewrite Hrest, lookup_insert_eq, Hcls.
      * by rewrite lookup_insert_ne.
Qed.

Lemma BuildEvents_dict {E} (events : gmap string value)
    (event_map : gmap string (value -> E)) :
  BuildEvents (VDict events) event_map
  = Ok (BuildEvents_loop (map_to_list events) event_map ∅).
Proof. reflexivity. Qed.

Lemma BuildEvents_dict_lookup {E} (events : gmap string value)
    (event_map : gmap string (value -> E)) (event : string) :
  BuildEvents_loop (map_to_list events) event_map ∅ !! event =
    match event_map !! event with
    | Some cls => cls <$> events !! event
    | None => None
    end.
Proof.
  rewrite BuildEvents_loop_lookup by apply NoDup_fst_map_to_list.
  rewrite list_to_map_to_list, lookup_empty.
  destruct (events !! event), (event_map !! event); reflexivity.
Qed.

(** C1. On every input mapping and every registry, [BuildEvents] returns
    (raising nothing) a mapping whose keys are exactly the input keys that
    the registry knows, each mapped to the registered constructor applied to
    the raw data of that key; an input entry whose type string is not in the
    registry leaves no trace in the result. *)
Theorem BuildEvents_dispatch {E} (events : gmap string value)
    (event_map : gmap string (value -> E)) :
  exists built : gmap string E,
    BuildEvents (VDict events) event_map = Ok built
    /\ dom built = dom events ∩ dom event_map
    /\ (forall event event_data cls,
          events !! event = Some event_data ->
          event_map !! event = Some cls ->
          built !! event = Some (cls event_data))
    /\ (forall event, event_map !! event = None -> built !! event = None).
Proof.
  exists (BuildEvents_loop (map_to_list events) event_map ∅).
  split; [apply BuildEvents_dict|].
  split; [|split].
  - apply set_eq; intros event.
    rewrite elem_of_intersection, !elem_of_dom, BuildEvents_dict_lookup.
    unfold is_Some.
    destruct (event_map !! event) as [cls|], (events !! event) as [d|]; simpl;
      (split; [intros [x Hx] | intros [[x Hx] [y Hy]]]); try discriminate; eauto.
  - intros event event_data cls He Hc.
    by rewrite BuildEvents_dict_lookup, Hc, He.
  - intros event Hc. by rewrite BuildEvents_dict_lookup, Hc.
Qed.

(** ** The builtins *)

Lemma contains_Some (key : string) (d : gmap string value) (v : value) :
  d !! key = Some v -> contains key d = true.
Proof. intros H. unfold contains. apply bool_decide_eq_true. eauto. Qed.

Lemma contains_None (key : string) (d : gmap string value) :
  d !! key = None -> contains key d = false.
Proof.
  intros H. unfold contains. apply bool_decide_eq_false.
  rewrite H. apply is_Some_None.
Qed.

Lemma dict_getitem_Some (d : gmap string value) (key : string) (v : value) :
  d !! key = Some v -> dict_getitem d key = Ok v.
Proof. intros H. unfold dict_getitem. by rewrite H. Qed.

Lemma dict_getitem_None (d : gmap string value) (key : string) :
  d !! key = None -> dict_getitem d key = Raise (KeyError key).
Proof. intros H. unfold dict_getitem. by rewrite H. Qed.

(** A [KeyError] out of [d[key]] means that [key] is not in [d]. *)
Lemma dict_getitem_KeyError (d : gmap string value) (key : string) :
  (exists k, dict_getitem d key = Raise (KeyError k)) <-> d !! key = None.
Proof.
  unfold dict_getitem. destruct (d !! key) as [v|]; split.
  - intros [k Hk]. discriminate.
  - discriminate.
  - reflexivity.
  - eauto.
Qed.

Lemma append_cons (x : ascii) (a b : string) :
  String x a +:+ b = String x (a +:+ b).
Proof. reflexivity. Qed.

Lemma append_assoc (a b c : string) : (a +:+ b) +:+ c = a +:+ b +:+ c.
Proof.
  induction a as [|x a IH]; [reflexivity|].
  by rewrite !append_cons, IH.
Qed.

(** For a one-character [old], [str.replace] rewrites character by
    character. *)
Lemma replace_go_char (c : ascii) (new s : string) :
  replace_go (String c EmptyString) new 0 s = replace_every_char c new s.
Proof.
  induction s as [|a s IH]; simpl; [reflexivity|].
  destruct (ascii_dec c a) as [->|Hne].
  - rewrite Ascii.eqb_refl, IH. by destruct s.
  - apply not_eq_sym, Ascii.eqb_neq in Hne. by rewrite Hne, IH.
Qed.

Lemma str_replace_char (c : ascii) (new s : string) :
  str_replace s (String c EmptyString) new = replace_every_char c new s.
Proof. apply replace_go_char. Qed.

Lemma replace_every_char_app (c : ascii) (new s1 s2 : string) :
  replace_every_char c new (s1 +:+ s2)
  = replace_every_char c new s1 +:+ replace_every_char c new s2.
Proof.
  induction s1 as [|a s1 IH]; [reflexivity|].
  change (replace_every_char c new (String a s1 +:+ s2))
    with ((if Ascii.eqb a c then new else String a EmptyString)
            +:+ replace_every_char c new (s1 +:+ s2)).
  change (replace_every_char c new (String a s1))
    with ((if Ascii.eqb a c then new else String a EmptyString)
            +:+ replace_every_char c new s1).
  by rewrite IH, append_assoc.
Qed.

Lemma replace_every_char_absent (c : ascii) (new s : string) :
  has_char c s = false -> replace_every_char c new s = s.
Proof.
  induction s as [|a s IH]; simpl; [reflexivity|].
  intros [Ha Hs]%orb_false_iff. by rewrite Ha, (IH Hs).
Qed.

Lemma has_char_app (c : ascii) (s1 s2 : string) :
  has_char c (s1 +:+ s2) = has_char c s1 || has_char c s2.
Proof.
  induction s1 as [|a s1 IH]; [reflexivity|].
  rewrite append_cons. simpl. by rewrite IH, orb_assoc.
Qed.

Lemma replace_every_char_gone (c : ascii) (new s : string) :
  has_char c new = false -> has_char c (replace_every_char c new s) = false.
Proof.
  intros Hnew. induction s as [|a s IH]; simpl; [reflexivity|].
  rewrite has_char_app, IH, orb_false_r.
  destruct (Ascii.eqb a c) eqn:Ha; simpl; [done | by rewrite Ha].
Qed.

(** ** Methods that only read *)

Lemma leaves_self_ret {Self A} (a : A) : leaves_self (mret a : method Self A).
Proof. by intros self. Qed.

Lemma leaves_self_lift {Self A} (r : result A) :
  leaves_self (lift r : method Self A).
Proof. by intros self. Qed.

Lemma leaves_self_getattr {Self A} (field : Self -> A) :
  leaves_self (getattr field).
Proof. by intros self. Qed.

Lemma leaves_self_bind {Self A B} (m : method Self A) (k : A -> method Self B) :
  leaves_self m -> (forall a, leaves_self (k a)) -> leaves_self (m ≫= k).
Proof.
  intros Hm Hk self. specialize (Hm self).
  unfold after, mbind, method_bind in *.
  destruct (m self) as [[a|e] self']; simpl in *; subst self'.
  - apply Hk.
  - reflexivity.
Qed.

Lemma leaves_self_if {Self A} (b : bool) (m1 m2 : method Self A) :
  leaves_self m1 -> leaves_self m2 -> leaves_self (if b then m1 else m2).
Proof. by destruct b. Qed.

Create HintDb readonly.
#[local] Hint Resolve leaves_self_ret leaves_self_lift leaves_self_getattr :
  readonly.

(** Walks down the binds and branches of a method body. *)
Ltac readonly :=
  repeat first
    [ apply leaves_self_bind; [|intros ?]
    | apply leaves_self_if
    | progress cbv zeta ];
  auto with readonly.

(** ** Event messages *)

Ltac method_unfold :=
  unfold call, after, access, tagged,
    EventMessage.event_id, EventMessage.timestamp,
    EventMessage.resource_update_traits, EventMessage.resource_update_events,
    EventMessage.resource_update_name, EventMessage.relation_update,
    EventBase.event_id, EventBase.event_session_id,
    RelationUpdate.type, RelationUpdate.subject, RelationUpdate.object,
    mbind, method_bind, mret, method_ret, getattr, lift;
  simpl.

Section Properties.

Variable Auth : Type.
Variable datetime : Type.
Variable fromisoformat : string -> option datetime.
Variable Traits : Type.
Variable BuildTraits : value -> Command Auth -> result Traits.

Local Abbreviation timestamp := (EventMessage.timestamp fromisoformat).
Local Abbreviation parse := (EventMessage.datetime_fromisoformat datetime fromisoformat).
Local Abbreviation resource_update_traits := (EventMessage.resource_update_traits BuildTraits).

(** What [timestamp] does on a string: the parser runs on the string with
    every Z rewritten. *)
Lemma timestamp_str (raw : gmap string value) (auth : Auth) (s : string) :
  raw !! TIMESTAMP = Some (VStr s) ->
  call timestamp (EventMessage.new raw auth)
  = parse (replace_every_char "Z" "+00:00" s).
Proof.
  intros Hs. method_unfold.
  rewrite (dict_getitem_Some _ _ _ Hs). simpl.
  by rewrite replace_go_char.
Qed.

(** C2. When the raw dictionary holds a string under "timestamp", a trailing
    Z designator is rewritten to +00:00 before the parser runs (and a string
    without Z is parsed as it is); on "2021-07-01T12:00:00Z" the accessor
    returns what parsing "2021-07-01T12:00:00+00:00" returns; and when the
    parser rejects the normalized string the accessor fails with the parse
    error. *)
Theorem timestamp_normalizes_trailing_Z (raw : gmap string value)
    (auth : Auth) (s : string) :
  raw !! TIMESTAMP = Some (VStr s) ->
  let message := EventMessage.new raw auth in
  (forall body, s = body +:+ "Z" -> has_char "Z" body = false ->
     call timestamp message = parse (body +:+ "+00:00"))
  /\ (has_char "Z" s = false -> call timestamp message = parse s)
  /\ (s = "2021-07-01T12:00:00Z" ->
      call timestamp message = parse "2021-07-01T12:00:00+00:00")
  /\ (fromisoformat (str_replace s "Z" "+00:00") = None ->
      call timestamp message = Raise ValueError).
Proof.
  intros Hs message. subst message.
  rewrite (timestamp_str _ _ _ Hs).
  repeat split.
  - intros body -> Hbody.
    by rewrite replace_every_char_app, (replace_every_char_absent _ _ _ Hbody).
  - intros Hfree. by rewrite (replace_every_char_absent _ _ _ Hfree).
  - by intros ->.
  - rewrite str_replace_char. unfold EventMessage.datetime_fromisoformat.
    by intros ->.
Qed.

(** C10. The substitution reaches every Z of the raw timestamp string, not
    only a trailing one: the string handed to the parser is the input with
    each Z replaced by +00:00, no Z is left in it, and a Z in front of any
    remainder is rewritten like the others. *)
Theorem timestamp_replaces_every_Z (raw : gmap string value) (auth : Auth)
    (s : string) :
  raw !! TIMESTAMP = Some (VStr s) ->
  let message := EventMessage.new raw auth in
  str_replace s "Z" "+00:00" = replace_every_char "Z" "+00:00" s
  /\ call timestamp message = parse (replace_every_char "Z" "+00:00" s)
  /\ has_char "Z" (replace_every_char "Z" "+00:00" s) = false
  /\ (forall front back, s = front +:+ "Z" +:+ back ->
      call timestamp message
      = parse (replace_every_char "Z" "+00:00" front
                 +:+ "+00:00" +:+ replace_every_char "Z" "+00:00" back)).
Proof.
  intros Hs message. subst message.
  rewrite (timestamp_str _ _ _ Hs).
  repeat split.
  - apply str_replace_char.
  - by apply replace_every_char_gone.
  - intros front back ->.
    by rewrite !replace_every_char_app.
Qed.

(** Reading a required key of a dict held by the object. *)
Lemma raises_KeyError_getitem (d : gmap string value) (key : string) :
  raises_KeyError (dict_getitem d key) = true <-> d !! key = None.
Proof.
  unfold dict_getitem. destruct (d !! key); simpl; split; congruence.
Qed.

(** C3. Building an event value object, a relation update or an event
    message from any raw dictionary succeeds and stores the dictionary as it
    is; each required-field accessor then fails with a missing-field error
    exactly when its key is absent from that dictionary, so the error shows
    at the access and not at construction. *)
Theorem required_fields_fail_at_access (raw data relation : gmap string value)
    (auth : Auth) (c : EventClass) :
  let message := EventMessage.new raw auth in
  let event := EventBase.new c (VDict data) in
  let update := RelationUpdate.new (VDict relation) in
  (EventMessage._raw_data message = raw
   /\ EventBase._data event = VDict data
   /\ RelationUpdate._raw_data update = VDict relation)
  /\ (raises_KeyError (call EventMessage.event_id message) = true
      <-> raw !! EVENT_ID = None)
  /\ (raises_KeyError (call timestamp message) = true
      <-> raw !! TIMESTAMP = None)
  /\ (raises_KeyError (call EventBase.event_id event) = true
      <-> data !! EVENT_ID = None)
  /\ (raises_KeyError (call EventBase.event_session_id event) = true
      <-> data !! EVENT_SESSION_ID = None)
  /\ (raises_KeyError (call RelationUpdate.type update) = true
      <-> relation !! TYPE = None)
  /\ (raises_KeyError (call RelationUpdate.subject update) = true
      <-> relation !! SUBJECT = None)
  /\ (raises_KeyError (call RelationUpdate.object update) = true
      <-> relation !! OBJECT = None).
Proof.
  intros message event update. subst message event update.
  split; [by repeat split|].
  split; [apply raises_KeyError_getitem|].
  split.
  { method_unfold. unfold dict_getitem.
    destruct (raw !! TIMESTAMP) as [v|]; simpl; [|by split].
    split; [|discriminate].
    destruct v; simpl; try discriminate.
    unfold EventMessage.datetime_fromisoformat.
    by destruct (fromisoformat _). }
  repeat split; try apply raises_KeyError_getitem;
    intros H; by apply raises_KeyError_getitem.
Qed.

(** C4. Without the "resourceUpdate" key the three resource-update accessors
    return [None] and raise nothing; without the "relationUpdate" key so
    does [relation_update]. *)
Theorem optional_sections_absent (raw : gmap string value) (auth : Auth) :
  let message := EventMessage.new raw auth in
  (raw !! RESOURCE_UPDATE = None ->
     call EventMessage.resource_update_name message = Ok VNone
     /\ call EventMessage.resource_update_events message = Ok None
     /\ call resource_update_traits message = Ok None)
  /\ (raw !! RELATION_UPDATE = None ->
      call EventMessage.relation_update message = Ok None).
Proof.
  intros message. subst message.
  split; intros Habsent; method_unfold;
    by rewrite (contains_None _ _ Habsent).
Qed.

(** C5. With a "relationUpdate" section in the raw dictionary,
    [relation_update] returns a relation update over that section; its
    [type], [subject] and [object] return exactly the values stored under
    "type", "subject" and "object", and each fails with a missing-field error
    when its key is not in the section. *)
Theorem relation_update_accessors (raw section : gmap string value)
    (auth : Auth) :
  raw !! RELATION_UPDATE = Some (VDict section) ->
  exists update,
    call EventMessage.relation_update (EventMessage.new raw auth) = Ok (Some update)
    /\ RelationUpdate._raw_data update = VDict section
    /\ call RelationUpdate.type update
       = match section !! "type" with
         | Some v => Ok v
         | None => Raise (KeyError "type")
         end
    /\ call RelationUpdate.subject update
       = match section !! "subject" with
         | Some v => Ok v
         | None => Raise (KeyError "subject")
         end
    /\ call RelationUpdate.object update
       = match section !! "object" with
         | Some v => Ok v
         | None => Raise (KeyError "object")
         end.
Proof.
  intros Hsection.
  exists (RelationUpdate.new (VDict section)).
  split; [|by repeat split].
  method_unfold. rewrite (contains_Some _ _ _ Hsection). simpl.
  unfold dict_getitem. by rewrite Hsection.
Qed.

(** C6. Each of the four event variants, built from a raw dictionary with
    the keys "eventId" and "eventSessionId", returns the value stored under
    "eventId" from [event_id] and the value stored under "eventSessionId"
    from [event_session_id]; the registry builds the variant under the name
    of its class. *)
Theorem event_accessors (c : EventClass) (data : gmap string value)
    (id session : value) :
  data !! "eventId" = Some id ->
  data !! "eventSessionId" = Some session ->
  EVENT_MAP !! class_NAME c = Some (EventBase.new c)
  /\ EventBase.cls (EventBase.new c (VDict data)) = c
  /\ call EventBase.event_id (EventBase.new c (VDict data)) = Ok id
  /\ call EventBase.event_session_id (EventBase.new c (VDict data)) = Ok session.
Proof.
  intros Hid Hsession.
  split; [by destruct c; vm_compute|].
  split; [reflexivity|].
  split; method_unfold; by apply dict_getitem_Some.
Qed.

(** C7. With a "resourceUpdate" section in the raw dictionary,
    [resource_update_events] returns what [BuildEvents] makes of the value
    under "events" (of the empty dict when the key is missing) with the
    registry [EVENT_MAP]: a mapping when that value is a dict, and the empty
    mapping, neither [None] nor an error, when the section has no "events"
    key. *)
Theorem resource_update_events_dispatch (raw section : gmap string value)
    (auth : Auth) :
  raw !! RESOURCE_UPDATE = Some (VDict section) ->
  let message := EventMessage.new raw auth in
  call EventMessage.resource_update_events message
  = result_map Some (BuildEvents (default (VDict ∅) (section !! EVENTS)) EVENT_MAP)
  /\ (forall events, section !! EVENTS = Some (VDict events) ->
      exists built,
        BuildEvents (VDict events) EVENT_MAP = Ok built
        /\ call EventMessage.resource_update_events message = Ok (Some built))
  /\ (section !! EVENTS = None ->
      call EventMessage.resource_update_events message = Ok (Some ∅)).
Proof.
  intros Hsection message. subst message.
  assert (Hcall : call EventMessage.resource_update_events (EventMessage.new raw auth)
    = result_map Some (BuildEvents (default (VDict ∅) (section !! EVENTS)) EVENT_MAP)).
  { method_unfold. rewrite (contains_Some _ _ _ Hsection). simpl.
    unfold dict_getitem. rewrite Hsection. simpl.
    by destruct (BuildEvents _ _). }
  rewrite Hcall. split; [reflexivity|]. split.
  - intros events Hevents. rewrite Hevents.
    exists (BuildEvents_loop (map_to_list events) EVENT_MAP ∅).
    split; reflexivity.
  - intros Hevents. rewrite Hevents.
    change (default (VDict ∅) None) with (VDict ∅).
    by rewrite BuildEvents_dict, map_to_list_empty.
Qed.

(** Every accessor of an event message only reads the object. *)
Lemma access_leaves_self (a : accessor) :
  leaves_self (access fromisoformat BuildTraits a).
Proof.
  destruct a;
    unfold access, tagged, EventMessage.event_id, EventMessage.timestamp,
      EventMessage.resource_update_name, EventMessage.resource_update_events,
      EventMessage.resource_update_traits, EventMessage.relation_update;
    readonly.
Qed.

(** C8. When an accessor of an event message raises, the message is left as
    it was, its raw data included, and every accessor called afterwards on
    the same object returns what it returns on a message that saw no
    failure. *)
Theorem accessor_failure_is_local (message : EventMessage.t Auth)
    (a : accessor) (e : exn) :
  call (access fromisoformat BuildTraits a) message = Raise e ->
  let message' := after (access fromisoformat BuildTraits a) message in
  message' = message
  /\ EventMessage._raw_data message' = EventMessage._raw_data message
  /\ (forall b : accessor,
        call (access fromisoformat BuildTraits b) message'
        = call (access fromisoformat BuildTraits b) message).
Proof.
  intros _ message'. subst message'.
  by rewrite (access_leaves_self a message).
Qed.

(** C9. With a "resourceUpdate" section that has no "name" key,
    [resource_update_traits] fails with the missing-field error of
    [resource_update_name], which it reads first to build the command,
    whatever the section holds under "traits" and whatever the trait builder
    would make of it. *)
Theorem resource_update_traits_needs_name (raw section : gmap string value)
    (auth : Auth) :
  raw !! RESOURCE_UPDATE = Some (VDict section) ->
  section !! NAME = None ->
  let message := EventMessage.new raw auth in
  call EventMessage.resource_update_name message = Raise (KeyError "name")
  /\ call resource_update_traits message = Raise (KeyError "name").
Proof.
  intros Hsection Hname message. subst message.
  split; method_unfold;
    repeat first
      [ rewrite (contains_Some _ _ _ Hsection)
      | rewrite Hsection
      | rewrite Hname
      | progress unfold dict_getitem
      | progress simpl ];
    reflexivity.
Qed.

End Properties.

(** ** The theorems at concrete payloads *)

Example BuildEvents_drops_unknown :
  BuildEvents (VDict events_payload) EVENT_MAP
  = Ok {[ "sdm.devices.events.CameraMotion.Motion" :=
            EventBase.new CameraMotionEvent (VDict event_payload) ]}.
Proof. vm_compute. reflexivity. Qed.

Lemma timestamp_normalizes_trailing_Z_witness :
  call (EventMessage.timestamp fixed_fromisoformat)
    (EventMessage.new relation_message tt)
  = Ok (Build_fixed_datetime 2021 7 1 12 0 0 (Some 0%Z)).
Proof.
  destruct (timestamp_normalizes_trailing_Z unit fixed_datetime
              fixed_fromisoformat relation_message tt "2021-07-01T12:00:00Z"
              eq_refl) as [Hbody _].
  exact (Hbody "2021-07-01T12:00:00" eq_refl eq_refl).
Defined.

(** With the identity for a parser the accessor shows the string it parses. *)
Lemma timestamp_replaces_every_Z_witness :
  call (EventMessage.timestamp Some)
    (EventMessage.new double_Z_message tt)
  = Ok "2021-07-01+00:0012:00:00+00:00".
Proof.
  destruct (timestamp_replaces_every_Z unit string Some
              double_Z_message tt "2021-07-01Z12:00:00Z" eq_refl) as (_ & _ & _ & Hfront).
  exact (Hfront "2021-07-01" "12:00:00Z" eq_refl).
Defined.

Lemma optional_sections_absent_witness :
  (call EventMessage.resource_update_name (EventMessage.new relation_message tt)
   = Ok VNone
   /\ call EventMessage.resource_update_events (EventMessage.new relation_message tt)
      = Ok None
   /\ call (EventMessage.resource_update_traits keep_traits)
        (EventMessage.new relation_message tt)
      = Ok None)
  /\ call EventMessage.relation_update (EventMessage.new resource_message tt)
     = Ok None.
Proof.
  split.
  - exact (proj1 (optional_sections_absent unit value keep_traits
                    relation_message tt) eq_refl).
  - exact (proj2 (optional_sections_absent unit value keep_traits
                    resource_message tt) eq_refl).
Defined.

Lemma relation_update_accessors_witness :
  exists update,
    call EventMessage.relation_update (EventMessage.new relation_message tt)
    = Ok (Some update)
    /\ call RelationUpdate.type update = Ok (VStr "CREATED")
    /\ call RelationUpdate.subject update = Ok (VStr "A")
    /\ call RelationUpdate.object update = Ok (VStr "B").
Proof.
  destruct (relation_update_accessors unit relation_message relation_payload
              tt eq_refl) as (update & Hcall & _ & Htype & Hsubject & Hobject).
  exists update. repeat split; assumption.
Defined.

Lemma event_accessors_witness :
  call EventBase.event_id (EventBase.new DoorbellChimeEvent (VDict event_payload))
  = Ok (VStr "E1")
  /\ call EventBase.event_session_id
       (EventBase.new DoorbellChimeEvent (VDict event_payload))
     = Ok (VStr "S1").
Proof.
  exact (proj2 (proj2 (event_accessors DoorbellChimeEvent event_payload
                         (VStr "E1") (VStr "S1") eq_refl eq_refl))).
Defined.

Lemma resource_update_events_dispatch_witness :
  call EventMessage.resource_update_events (EventMessage.new resource_message tt)
  = Ok (Some ∅).
Proof.
  destruct (resource_update_events_dispatch unit resource_message
              {[ "name" := VStr "enterprises/p/devices/d" ]} tt eq_refl)
    as (_ & _ & Hmissing).
  exact (Hmissing eq_refl).
Defined.

(** [event_id] fails on a message without "eventId"; [timestamp] then
    answers as it does on a message nobody touched. *)
Lemma accessor_failure_is_local_witness :
  let message := EventMessage.new anonymous_message tt in
  call (access fixed_fromisoformat keep_traits A_event_id) message
  = Raise (KeyError "eventId")
  /\ call (access fixed_fromisoformat keep_traits A_timestamp)
       (after (access fixed_fromisoformat keep_traits A_event_id) message)
     = Ok (O_datetime (Build_fixed_datetime 2021 7 1 12 0 0 (Some 0%Z))).
Proof.
  intros message. split; [reflexivity|].
  destruct (accessor_failure_is_local unit fixed_datetime fixed_fromisoformat
              value keep_traits message A_event_id (KeyError "eventId") eq_refl)
    as (_ & _ & Hother).
  rewrite (Hother A_timestamp). reflexivity.
Defined.

Lemma resource_update_traits_needs_name_witness :
  call (EventMessage.resource_update_traits keep_traits)
    (EventMessage.new nameless_message tt)
  = Raise (KeyError "name").
Proof.
  exact (proj2 (resource_update_traits_needs_name unit value keep_traits
                  nameless_message
                  {[ "traits" :=
                       VDict {[ "sdm.devices.traits.Info" :=
                                  VDict {[ "customName" := VStr "Door" ]} ]} ]}
                  tt eq_refl eq_refl)).
Defined.

(** * Further properties of the module *)

(** ** The dispatch loop as a map transformer *)

(** X1. The dict built by the loop of [BuildEvents] does not depend on the
    order in which the items of the input are visited, as long as the keys
    are distinct (as the keys of a dict are). *)
Theorem BuildEvents_order_irrelevant {E} (items items' : list (string * value))
    (event_map : gmap string (value -> E)) (result : gmap string E) :
  NoDup items.*1 -> items ≡ₚ items' ->
  BuildEvents_loop items event_map result
  = BuildEvents_loop items' event_map result.
Proof.
  intros Hnd Hperm.
  assert (Hnd' : NoDup items'.*1) by by rewrite <- Hperm.
  apply map_eq; intros event.
  rewrite !BuildEvents_loop_lookup by assumption.
  by rewrite (list_to_map_proper (M := gmap string) items items' Hnd Hperm).
Qed.

Lemma BuildEvents_Ok_lookup {E} (events : gmap string value)
    (event_map : gmap string (value -> E)) (built : gmap string E)
    (event : string) :
  BuildEvents (VDict events) event_map = Ok built ->
  built !! event =
    match event_map !! event with
    | Some cls => cls <$> events !! event
    | None => None
    end.
Proof.
  rewrite BuildEvents_dict. intros [= <-]. apply BuildEvents_dict_lookup.
Qed.

(** X2. Adding an entry to the input of [BuildEvents] (or replacing one)
    changes the result at that key only: the entry of a registered type is
    put in the result, built by its constructor; the entry of an
    unregistered type leaves the result as it was. *)
Theorem BuildEvents_insert_entry {E} (events : gmap string value)
    (event_map : gmap string (value -> E)) (built : gmap string E)
    (event : string) (event_data : value) :
  BuildEvents (VDict events) event_map = Ok built ->
  BuildEvents (VDict (<[event := event_data]> events)) event_map
  = Ok (match event_map !! event with
        | Some cls => <[event := cls event_data]> built
        | None => built
        end).
Proof.
  intros Hbuilt. rewrite BuildEvents_dict. f_equal.
  apply map_eq; intros k.
  rewrite BuildEvents_dict_lookup.
  destruct (decide (event = k)) as [->|Hne].
  - rewrite lookup_insert_eq.
    destruct (event_map !! k) as [cls|] eqn:Hcls; simpl.
    + by rewrite lookup_insert_eq.
    + by rewrite (BuildEvents_Ok_lookup _ _ _ k Hbuilt), Hcls.
  - rewrite lookup_insert_ne by done.
    rewrite <- (BuildEvents_Ok_lookup _ _ _ k Hbuilt).
    destruct (event_map !! event); [by rewrite lookup_insert_ne | done].
Qed.

(** X3. [BuildEvents] returns the empty dict on an empty input, and on any
    input when the registry is empty. *)
Theorem BuildEvents_empty {E} :
  (forall event_map : gmap string (value -> E),
     BuildEvents (VDict ∅) event_map = Ok ∅)
  /\ (forall events : gmap string value,
        BuildEvents (E := E) (VDict events) ∅ = Ok ∅).
Proof.
  split.
  - intros event_map. by rewrite BuildEvents_dict, map_to_list_empty.
  - intros events. rewrite BuildEvents_dict. f_equal.
    apply map_eq; intros k.
    by rewrite BuildEvents_dict_lookup, !lookup_empty.
Qed.

(** X4. [BuildEvents] is monotone: with more entries in the input and more
    types in the registry, every event built before is still built, under
    the same key and with the same value. *)
Theorem BuildEvents_monotone {E} (events events' : gmap string value)
    (event_map event_map' : gmap string (value -> E))
    (built built' : gmap string E) :
  events ⊆ events' -> event_map ⊆ event_map' ->
  BuildEvents (VDict events) event_map = Ok built ->
  BuildEvents (VDict events') event_map' = Ok built' ->
  built ⊆ built'.
Proof.
  intros Hevents Hmap Hbuilt Hbuilt'.
  apply map_subseteq_spec; intros k e.
  rewrite (BuildEvents_Ok_lookup _ _ _ k Hbuilt),
    (BuildEvents_Ok_lookup _ _ _ k Hbuilt').
  destruct (event_map !! k) as [cls|] eqn:Hcls; [|discriminate].
  rewrite (lookup_weaken _ _ _ _ Hcls Hmap).
  destruct (events !! k) as [d|] eqn:Hd; [|discriminate].
  by rewrite (lookup_weaken _ _ _ _ Hd Hevents).
Qed.

(** X5. [BuildEvents] never returns more events than the input has entries,
    nor more than the registry has types. *)
Theorem BuildEvents_size {E} (events : gmap string value)
    (event_map : gmap string (value -> E)) (built : gmap string E) :
  BuildEvents (VDict events) event_map = Ok built ->
  (size built <= size events)%nat /\ (size built <= size event_map)%nat.
Proof.
  intros Hbuilt.
  assert (Hdom : dom built ⊆ dom events ∩ dom event_map).
  { intros k. rewrite elem_of_intersection, !elem_of_dom.
    rewrite (BuildEvents_Ok_lookup _ _ _ k Hbuilt). unfold is_Some.
    destruct (event_map !! k), (events !! k); simpl; intros [x Hx];
      try discriminate; eauto. }
  rewrite <- !size_dom.
  split; apply subseteq_size; (etrans; [exact Hdom|]).
  - apply intersection_subseteq_l.
  - apply intersection_subseteq_r.
Qed.

(** ** The registry of this module *)

Lemma EVENT_MAP_lookup_Some (name : string) (constructor : value -> EventBase.t) :
  EVENT_MAP !! name = Some constructor ->
  exists c, name = class_NAME c /\ constructor = EventBase.new c.
Proof.
  unfold EVENT_MAP, register_class, register. intros H.
  repeat (apply lookup_insert_Some in H as [[<- <-]|[_ H]]; [eauto|]).
  by rewrite lookup_empty in H.
Qed.

Lemma EVENT_MAP_lookup_class (c : EventClass) :
  EVENT_MAP !! class_NAME c = Some (EventBase.new c).
Proof. by destruct c; vm_compute. Qed.

(** ** Event messages, beyond the required fields *)

(** Runs an accessor on a message whose raw dictionary has the entry [H]. *)
Ltac run_with H :=
  method_unfold;
  repeat first
    [ rewrite (contains_Some _ _ _ H)
    | rewrite H
    | progress unfold dict_getitem
    | progress simpl ].

Section MoreProperties.

Variable Auth : Type.
Variable datetime : Type.
Variable fromisoformat : string -> option datetime.
Variable Traits : Type.
Variable BuildTraits : value -> Command Auth -> result Traits.

Local Abbreviation timestamp := (EventMessage.timestamp fromisoformat).
Local Abbreviation parse := (EventMessage.datetime_fromisoformat datetime fromisoformat).
Local Abbreviation resource_update_traits := (EventMessage.resource_update_traits BuildTraits).

(** [resource_update_events] once the key is there, whatever it holds. *)
Lemma resource_update_events_run (raw : gmap string value) (auth : Auth)
    (v : value) :
  raw !! RESOURCE_UPDATE = Some v ->
  call EventMessage.resource_update_events (EventMessage.new raw auth)
  = result_map Some
      (result_bind (dict_get v EVENTS (VDict ∅))
         (fun events => BuildEvents events EVENT_MAP)).
Proof.
  intros Hv. method_unfold. rewrite (contains_Some _ _ _ Hv). simpl.
  unfold dict_getitem. rewrite Hv. simpl.
  destruct (dict_get v EVENTS (VDict ∅)) as [events|e]; simpl; [|reflexivity].
  by destruct (BuildEvents events EVENT_MAP).
Qed.

Lemma resource_update_events_section (raw section events : gmap string value)
    (auth : Auth) :
  raw !! RESOURCE_UPDATE = Some (VDict section) ->
  section !! EVENTS = Some (VDict events) ->
  call EventMessage.resource_update_events (EventMessage.new raw auth)
  = Ok (Some (BuildEvents_loop (map_to_list events) EVENT_MAP ∅)).
Proof.
  intros Hsection Hevents.
  rewrite (resource_update_events_run _ _ _ Hsection).
  unfold dict_get. by rewrite Hevents.
Qed.

(** X6. The events that [resource_update_events] returns for a well-formed
    section are exactly these: under the [NAME] of a registered class, an
    event of that class that wraps the raw data found under that name in
    the "events" dict. *)
Theorem resource_update_events_entries (raw section events : gmap string value)
    (auth : Auth) :
  raw !! RESOURCE_UPDATE = Some (VDict section) ->
  section !! EVENTS = Some (VDict events) ->
  exists built,
    call EventMessage.resource_update_events (EventMessage.new raw auth)
    = Ok (Some built)
    /\ forall name event,
         built !! name = Some event
         <-> class_NAME (EventBase.cls event) = name
             /\ events !! name = Some (EventBase._data event).
Proof.
  intros Hsection Hevents.
  eexists. split; [by apply (resource_update_events_section _ section)|].
  intros name event. rewrite BuildEvents_dict_lookup. split.
  - destruct (EVENT_MAP !! name) as [constructor|] eqn:Hc; [|discriminate].
    apply EVENT_MAP_lookup_Some in Hc as (c & -> & ->).
    destruct (events !! class_NAME c) as [d|]; [|discriminate].
    by intros [= <-].
  - intros [<- Hdata].
    rewrite EVENT_MAP_lookup_class, Hdata. by destruct event.
Qed.

(** X7. An event of a registered type reported in the "events" dict of a
    resource update comes out of [resource_update_events] as an object of
    the class of that type, whose [event_id] and [event_session_id] return
    the values stored in its raw data. *)
Theorem resource_update_events_ids (raw section events data : gmap string value)
    (auth : Auth) (c : EventClass) (id session : value) :
  raw !! RESOURCE_UPDATE = Some (VDict section) ->
  section !! EVENTS = Some (VDict events) ->
  events !! class_NAME c = Some (VDict data) ->
  data !! EVENT_ID = Some id ->
  data !! EVENT_SESSION_ID = Some session ->
  exists built event,
    call EventMessage.resource_update_events (EventMessage.new raw auth)
    = Ok (Some built)
    /\ built !! class_NAME c = Some event
    /\ EventBase.cls event = c
    /\ call EventBase.event_id event = Ok id
    /\ call EventBase.event_session_id event = Ok session.
Proof.
  intros Hsection Hevents Hdata Hid Hsession.
  exists (BuildEvents_loop (map_to_list events) EVENT_MAP ∅),
    (EventBase.new c (VDict data)).
  split; [by apply (resource_update_events_section _ section)|].
  split; [by rewrite BuildEvents_dict_lookup, EVENT_MAP_lookup_class, Hdata|].
  split; [reflexivity|].
  split; method_unfold; by apply dict_getitem_Some.
Qed.

(** X8. Dispatch does not look into the data of an event: an entry of a
    registered type whose data is not a dict is still built, and the
    malformed data shows only when an accessor of the event is called, as a
    [TypeError]. *)
Theorem resource_update_events_lazy (raw section events : gmap string value)
    (auth : Auth) (c : EventClass) (data : value) :
  raw !! RESOURCE_UPDATE = Some (VDict section) ->
  section !! EVENTS = Some (VDict events) ->
  events !! class_NAME c = Some data ->
  is_dict data = false ->
  exists built event,
    call EventMessage.resource_update_events (EventMessage.new raw auth)
    = Ok (Some built)
    /\ built !! class_NAME c = Some event
    /\ call EventBase.event_id event = Raise TypeError
    /\ call EventBase.event_session_id event = Raise TypeError.
Proof.
  intros Hsection Hevents Hdata Hnot.
  exists (BuildEvents_loop (map_to_list events) EVENT_MAP ∅),
    (EventBase.new c data).
  split; [by apply (resource_update_events_section _ section)|].
  split; [by rewrite BuildEvents_dict_lookup, EVENT_MAP_lookup_class, Hdata|].
  by destruct data.
Qed.

(** X9. The presence test looks at the key, not at the value: when
    "resourceUpdate" holds something that is not a dict (JSON null, say),
    no accessor returns [None]; [resource_update_name] and
    [resource_update_traits] raise [TypeError] and
    [resource_update_events] raises [AttributeError]. *)
Theorem resource_update_not_a_dict (raw : gmap string value) (auth : Auth)
    (v : value) :
  raw !! RESOURCE_UPDATE = Some v ->
  is_dict v = false ->
  let message := EventMessage.new raw auth in
  call EventMessage.resource_update_name message = Raise TypeError
  /\ call EventMessage.resource_update_events message
     = Raise (AttributeError "get")
  /\ call resource_update_traits message = Raise TypeError.
Proof.
  intros Hv Hnot message. subst message.
  split; [|split].
  - run_with Hv. by destruct v.
  - rewrite (resource_update_events_run _ _ _ Hv). by destruct v.
  - run_with Hv. by destruct v.
Qed.

(** X10. When the section is a dict and its "events" entry is not,
    [resource_update_events] raises [AttributeError], while
    [resource_update_name] still returns the name of the device. *)
Theorem resource_update_events_not_a_dict (raw section : gmap string value)
    (auth : Auth) (v name : value) :
  raw !! RESOURCE_UPDATE = Some (VDict section) ->
  section !! EVENTS = Some v ->
  is_dict v = false ->
  section !! NAME = Some name ->
  let message := EventMessage.new raw auth in
  call EventMessage.resource_update_events message
  = Raise (AttributeError "items")
  /\ call EventMessage.resource_update_name message = Ok name.
Proof.
  intros Hsection Hv Hnot Hname message. subst message. split.
  - rewrite (resource_update_events_run _ _ _ Hsection).
    unfold dict_get. rewrite Hv. by destruct v.
  - run_with Hsection. by rewrite Hname.
Qed.

(** X11. [relation_update] wraps whatever is stored under "relationUpdate"
    without looking at it: it never raises once the key is there, and when
    the value is not a dict it still returns an object, not [None], whose
    three accessors raise [TypeError]. *)
Theorem relation_update_any_value (raw : gmap string value) (auth : Auth)
    (v : value) :
  raw !! RELATION_UPDATE = Some v ->
  exists update,
    call EventMessage.relation_update (EventMessage.new raw auth)
    = Ok (Some update)
    /\ RelationUpdate._raw_data update = v
    /\ (is_dict v = false ->
        call RelationUpdate.type update = Raise TypeError
        /\ call RelationUpdate.subject update = Raise TypeError
        /\ call RelationUpdate.object update = Raise TypeError).
Proof.
  intros Hv. exists (RelationUpdate.new v).
  split; [|split; [reflexivity|]].
  - by run_with Hv.
  - by destruct v.
Qed.

(** X12. With a section that has a "name", [resource_update_name] returns
    it and [resource_update_traits] returns what the trait builder makes of
    the "traits" entry (of the empty dict when there is none) and of a
    command bound to that name and to the capability the message was built
    with; an error of the builder is the error of the accessor. *)
Theorem resource_update_traits_command (raw section : gmap string value)
    (auth : Auth) (name : value) :
  raw !! RESOURCE_UPDATE = Some (VDict section) ->
  section !! NAME = Some name ->
  let message := EventMessage.new raw auth in
  call EventMessage.resource_update_name message = Ok name
  /\ call resource_update_traits message
     = result_map Some
         (BuildTraits (default (VDict ∅) (section !! TRAITS))
            (Build_Command name auth)).
Proof.
  intros Hsection Hname message. subst message.
  split; run_with Hsection; rewrite Hname; simpl; [reflexivity|].
  destruct (section !! TRAITS); simpl; by destruct (BuildTraits _ _).
Qed.

(** X13. Every accessor of an event message reads one top-level key of
    the raw dictionary: two messages built with the same capability whose
    dictionaries agree on that key give the same outcome, whatever else
    they hold. *)
Theorem accessor_reads_own_key (raw raw' : gmap string value) (auth : Auth)
    (a : accessor) :
  raw !! key_of a = raw' !! key_of a ->
  call (access fromisoformat BuildTraits a) (EventMessage.new raw auth)
  = call (access fromisoformat BuildTraits a) (EventMessage.new raw' auth).
Proof.
  intros Hkey.
  destruct a; simpl in Hkey;
    destruct (raw' !! _) as [v|] eqn:Hkey';
    method_unfold;
    repeat first
      [ rewrite (contains_Some _ _ _ Hkey)
      | rewrite (contains_Some _ _ _ Hkey')
      | rewrite (contains_None _ _ Hkey)
      | rewrite (contains_None _ _ Hkey')
      | rewrite Hkey
      | rewrite Hkey'
      | progress unfold dict_getitem
      | progress simpl ];
    repeat match goal with
           | |- context [match ?x with _ => _ end] =>
               lazymatch x with
               | context [match _ with _ => _ end] => fail
               | _ => destruct x; simpl
               end
           end;
    reflexivity.
Qed.

(** X14. The errors of [timestamp]: a value under "timestamp" that is not
    a string raises [AttributeError], and the accessor raises nothing but
    the [KeyError] of a missing key, that [AttributeError] and the
    [ValueError] of the parser. *)
Theorem timestamp_errors (raw : gmap string value) (auth : Auth) :
  let message := EventMessage.new raw auth in
  (forall v, raw !! TIMESTAMP = Some v -> (forall s, v <> VStr s) ->
     call timestamp message = Raise (AttributeError "replace"))
  /\ (forall e, call timestamp message = Raise e ->
        e = KeyError "timestamp" \/ e = AttributeError "replace"
        \/ e = ValueError).
Proof.
  intros message. subst message. split.
  - intros v Hv Hnot. method_unfold. unfold dict_getitem. rewrite Hv.
    destruct v; try reflexivity. by destruct (Hnot s).
  - intros e. method_unfold. unfold dict_getitem.
    destruct (raw !! TIMESTAMP) as [v|]; simpl; [|intros [= <-]; by left].
    destruct v; simpl; try (intros [= <-]; right; by left).
    unfold EventMessage.datetime_fromisoformat.
    destruct (fromisoformat _); simpl; [discriminate|].
    intros [= <-]. right; by right.
Qed.

(** X15. Normalizing twice changes nothing: a message that carries the
    timestamp string in its normalized form has the timestamp of the
    message that carries the original string. *)
Theorem timestamp_of_normalized (raw raw' : gmap string value) (auth : Auth)
    (s : string) :
  raw !! TIMESTAMP = Some (VStr s) ->
  raw' !! TIMESTAMP = Some (VStr (str_replace s "Z" "+00:00")) ->
  call timestamp (EventMessage.new raw' auth)
  = call timestamp (EventMessage.new raw auth).
Proof.
  intros Hs Hs'.
  rewrite (timestamp_str _ _ _ _ _ _ Hs), (timestamp_str _ _ _ _ _ _ Hs').
  rewrite str_replace_char.
  by rewrite (replace_every_char_absent _ _ _
                (replace_every_char_gone "Z" "+00:00" s eq_refl)).
Qed.

End MoreProperties.

(** ** The further properties at concrete payloads *)

Lemma BuildEvents_order_irrelevant_witness :
  BuildEvents_loop
    [("sdm.devices.events.CameraMotion.Motion", VDict event_payload);
     ("unknown.type.Foo", VNone)] EVENT_MAP ∅
  = BuildEvents_loop
      [("unknown.type.Foo", VNone);
       ("sdm.devices.events.CameraMotion.Motion", VDict event_payload)]
      EVENT_MAP ∅.
Proof.
  apply BuildEvents_order_irrelevant.
  - simpl. compute_done.
  - apply perm_swap.
Defined.

Lemma BuildEvents_insert_entry_witness :
  BuildEvents
    (VDict (<["sdm.devices.events.CameraSound.Sound" := VDict event_payload]>
              events_payload)) EVENT_MAP
  = Ok (<["sdm.devices.events.CameraSound.Sound" :=
            EventBase.new CameraSoundEvent (VDict event_payload)]>
          (BuildEvents_loop (map_to_list events_payload) EVENT_MAP ∅)).
Proof.
  exact (BuildEvents_insert_entry events_payload EVENT_MAP _
           "sdm.devices.events.CameraSound.Sound" (VDict event_payload)
           eq_refl).
Defined.

Lemma BuildEvents_monotone_witness :
  BuildEvents_loop (map_to_list garbled_events)
    (register_class CameraMotionEvent ∅) ∅
  ⊆ BuildEvents_loop
      (map_to_list (<["unknown.type.Foo" := VNone]> garbled_events))
      (register_class CameraPersonEvent (register_class CameraMotionEvent ∅)) ∅.
Proof.
  apply (BuildEvents_monotone garbled_events
           (<["unknown.type.Foo" := VNone]> garbled_events)
           (register_class CameraMotionEvent ∅)
           (register_class CameraPersonEvent (register_class CameraMotionEvent ∅))).
  - apply insert_subseteq. reflexivity.
  - apply insert_subseteq. reflexivity.
  - reflexivity.
  - reflexivity.
Defined.

Lemma BuildEvents_size_witness :
  (size (BuildEvents_loop (map_to_list events_payload) EVENT_MAP ∅)
   <= size events_payload)%nat
  /\ (size (BuildEvents_loop (map_to_list events_payload) EVENT_MAP ∅)
      <= size EVENT_MAP)%nat.
Proof.
  exact (BuildEvents_size events_payload EVENT_MAP _ eq_refl).
Defined.

Lemma resource_update_events_entries_witness :
  exists built,
    call EventMessage.resource_update_events (EventMessage.new events_message tt)
    = Ok (Some built)
    /\ forall name event,
         built !! name = Some event
         <-> class_NAME (EventBase.cls event) = name
             /\ events_payload !! name = Some (EventBase._data event).
Proof.
  exact (resource_update_events_entries unit events_message events_section
           events_payload tt eq_refl eq_refl).
Defined.

Lemma resource_update_events_ids_witness :
  exists built event,
    call EventMessage.resource_update_events (EventMessage.new events_message tt)
    = Ok (Some built)
    /\ built !! "sdm.devices.events.CameraMotion.Motion" = Some event
    /\ EventBase.cls event = CameraMotionEvent
    /\ call EventBase.event_id event = Ok (VStr "E1")
    /\ call EventBase.event_session_id event = Ok (VStr "S1").
Proof.
  exact (resource_update_events_ids unit events_message events_section
           events_payload event_payload tt CameraMotionEvent
           (VStr "E1") (VStr "S1") eq_refl eq_refl eq_refl eq_refl eq_refl).
Defined.

Lemma resource_update_events_lazy_witness :
  exists built event,
    call EventMessage.resource_update_events (EventMessage.new garbled_message tt)
    = Ok (Some built)
    /\ built !! "sdm.devices.events.CameraMotion.Motion" = Some event
    /\ call EventBase.event_id event = Raise TypeError
    /\ call EventBase.event_session_id event = Raise TypeError.
Proof.
  exact (resource_update_events_lazy unit garbled_message garbled_section
           garbled_events tt CameraMotionEvent (VStr "garbled")
           eq_refl eq_refl eq_refl eq_refl).
Defined.

Lemma resource_update_not_a_dict_witness :
  call EventMessage.resource_update_name (EventMessage.new null_message tt)
  = Raise TypeError
  /\ call EventMessage.resource_update_events (EventMessage.new null_message tt)
     = Raise (AttributeError "get")
  /\ call (EventMessage.resource_update_traits keep_traits)
       (EventMessage.new null_message tt)
     = Raise TypeError.
Proof.
  exact (resource_update_not_a_dict unit value keep_traits null_message tt
           VNone eq_refl eq_refl).
Defined.

Lemma resource_update_events_not_a_dict_witness :
  call EventMessage.resource_update_events (EventMessage.new listed_message tt)
  = Raise (AttributeError "items")
  /\ call EventMessage.resource_update_name (EventMessage.new listed_message tt)
     = Ok (VStr "enterprises/p/devices/d").
Proof.
  exact (resource_update_events_not_a_dict unit listed_message listed_section
           tt (VList []) (VStr "enterprises/p/devices/d")
           eq_refl eq_refl eq_refl eq_refl).
Defined.

Lemma relation_update_any_value_witness :
  exists update,
    call EventMessage.relation_update (EventMessage.new null_message tt)
    = Ok (Some update)
    /\ call RelationUpdate.type update = Raise TypeError.
Proof.
  destruct (relation_update_any_value unit null_message tt VNone eq_refl)
    as (update & Hcall & _ & Herr).
  exists update. split; [exact Hcall|]. exact (proj1 (Herr eq_refl)).
Defined.

Lemma resource_update_traits_command_witness :
  call EventMessage.resource_update_name (EventMessage.new events_message tt)
  = Ok (VStr "enterprises/p/devices/d")
  /\ call (EventMessage.resource_update_traits keep_traits)
       (EventMessage.new events_message tt)
     = Ok (Some (VDict ∅)).
Proof.
  exact (resource_update_traits_command unit value keep_traits events_message
           events_section tt (VStr "enterprises/p/devices/d") eq_refl eq_refl).
Defined.

Lemma accessor_reads_own_key_witness :
  call (access fixed_fromisoformat keep_traits A_timestamp)
    (EventMessage.new relation_message tt)
  = call (access fixed_fromisoformat keep_traits A_timestamp)
      (EventMessage.new anonymous_message tt).
Proof.
  exact (accessor_reads_own_key unit fixed_datetime fixed_fromisoformat value
           keep_traits relation_message anonymous_message tt A_timestamp
           eq_refl).
Defined.

Lemma timestamp_errors_witness :
  call (EventMessage.timestamp fixed_fromisoformat)
    (EventMessage.new epoch_message tt)
  = Raise (AttributeError "replace").
Proof.
  apply (proj1 (timestamp_errors unit fixed_datetime fixed_fromisoformat
                  epoch_message tt) (VInt 1625140800)).
  - reflexivity.
  - intros s. discriminate.
Defined.

Lemma timestamp_of_normalized_witness :
  call (EventMessage.timestamp fixed_fromisoformat)
    (EventMessage.new normalized_message tt)
  = call (EventMessage.timestamp fixed_fromisoformat)
      (EventMessage.new relation_message tt).
Proof.
  exact (timestamp_of_normalized unit fixed_datetime fixed_fromisoformat
           relation_message normalized_message tt "2021-07-01T12:00:00Z"
           eq_refl eq_refl).
Defined.

(** ** The capability *)

Section Capability.

Variable Auth : Type.
Variable datetime : Type.
Variable fromisoformat : string -> option datetime.
Variable Traits : Type.
Variable BuildTraits : value -> Command Auth -> result Traits.

(** X16. The capability a message is built with is used by
    [resource_update_traits] alone: every other accessor returns the same
    outcome whatever the capability is. *)
Theorem accessor_ignores_auth (raw : gmap string value) (auth auth' : Auth)
    (a : accessor) :
  a <> A_resource_update_traits ->
  call (access fromisoformat BuildTraits a) (EventMessage.new raw auth)
  = call (access fromisoformat BuildTraits a) (EventMessage.new raw auth').
Proof.
  intros Hnot.
  destruct a; try (by destruct Hnot); method_unfold;
    try destruct (negb (contains _ raw)); simpl;
    repeat match goal with
           | |- context [match ?x with _ => _ end] =>
               lazymatch x with
               | context [match _ with _ => _ end] => fail
               | _ => destruct x; simpl
               end
           end;
    reflexivity.
Qed.

End Capability.

(** Run with a trait builder that would report the capability of the
    command. *)
Lemma accessor_ignores_auth_witness :
  call (access fixed_fromisoformat
          (fun (_ : value) (cmd : Command bool) => Ok (_cmd_auth cmd))
          A_relation_update)
    (EventMessage.new relation_message true)
  = call (access fixed_fromisoformat
            (fun (_ : value) (cmd : Command bool) => Ok (_cmd_auth cmd))
            A_relation_update)
      (EventMessage.new relation_message false).
Proof.
  apply (accessor_ignores_auth bool fixed_datetime fixed_fromisoformat bool
           (fun (_ : value) (cmd : Command bool) => Ok (_cmd_auth cmd))
           relation_message true false A_relation_update).
  discriminate.
Defined.
